(** * skll/utilities/generate_predictions.py

    A shallow embedding of the prediction utility of SKLL: the [Predictor]
    wrapper around a loaded [Learner] and the command-line entry point
    [main], with the properties its specification states about them.

    Python values are embedded as follows.  Integers are [Z], floats are the
    binary64 numbers of [PrimFloat], strings are [string].  What
    [ndarray.tolist()] returns is a nested list of integers and floats
    ([raw]).  An exception is a value of [exn]; code that may raise returns a
    [result].  The semantics followed is the one of Python 3. *)

From Stdlib Require Import ZArith List String Ascii Bool Lia.
From Stdlib Require Import Floats.
Import ListNotations.

Local Open Scope string_scope.
Local Open Scope Z_scope.

(** ** Exceptions and results *)

Inductive exn : Type :=
| TypeError
| IndexError
| ValueError
| OverflowError
| AttributeError
| KeyError
| LoadError
| OtherError (msg : string).

Inductive result (A : Type) : Type :=
| Ok (a : A)
| Raise (e : exn).

Arguments Ok {A} a.
Arguments Raise {A} e.

Definition bind {A B : Type} (r : result A) (k : A -> result B) : result B :=
  match r with
  | Ok a => k a
  | Raise e => Raise e
  end.

Declare Scope py_scope.
Delimit Scope py_scope with py.
Notation "x <- c ;; k" := (bind c (fun x => k))
  (at level 61, c at next level, right associativity) : py_scope.
Local Open Scope py_scope.

(** A list comprehension [[f x for x in l]]: the elements are evaluated from
    left to right and the first exception ends the evaluation. *)
Fixpoint comprehension {A B : Type} (f : A -> result B) (l : list A)
  : result (list B) :=
  match l with
  | [] => Ok []
  | x :: xs =>
      y <- f x ;;
      ys <- comprehension f xs ;;
      Ok (y :: ys)
  end.

(** ** The Python operations the utility applies to model output *)

(** The elements of [ndarray.tolist()]. *)
#[warnings="-register-all"]
Inductive raw : Type :=
| RInt (z : Z)
| RFloat (f : float)
| RList (l : list raw).

(** [l[i]] on a list: a negative index counts from the end, and an index
    outside [-len(l) <= i < len(l)] raises [IndexError]. *)
Definition list_getitem {A : Type} (l : list A) (i : Z) : result A :=
  let n := Z.of_nat (List.length l) in
  let j := if i <? 0 then i + n else i in
  if (j <? 0) || (n <=? j) then Raise IndexError
  else match nth_error l (Z.to_nat j) with
       | Some a => Ok a
       | None => Raise IndexError
       end.

(** [v[i]]: integers and floats are not subscriptable. *)
Definition getitem (v : raw) (i : Z) : result raw :=
  match v with
  | RList l => list_getitem l i
  | RInt _ | RFloat _ => Raise TypeError
  end.

(** [int(f)] on a float truncates towards zero; [int(nan)] raises
    [ValueError] and [int(inf)] raises [OverflowError]. *)
Definition int_of_float (f : float) : result Z :=
  match Prim2SF f with
  | S754_zero _ => Ok 0
  | S754_infinity _ => Raise OverflowError
  | S754_nan => Raise ValueError
  | S754_finite s m e =>
      let a := if 0 <=? e then Z.pos m * 2 ^ e else Z.pos m / 2 ^ (- e) in
      Ok (if s then - a else a)
  end.

(** [int(v)]. *)
Definition int_of (v : raw) : result Z :=
  match v with
  | RInt z => Ok z
  | RFloat f => int_of_float f
  | RList _ => Raise TypeError
  end.

(** [int(b)] on a boolean. *)
Definition int_of_bool (b : bool) : Z := if b then 1 else 0.

(** [z >= t] for an integer [z] and a float [t]: Python compares the two
    numbers exactly, without rounding [z] to a float. *)
Definition int_ge_float (z : Z) (t : float) : bool :=
  match Prim2SF t with
  | S754_nan => false
  | S754_infinity s => s
  | S754_zero _ => 0 <=? z
  | S754_finite s m e =>
      let sm := if s then Z.neg m else Z.pos m in
      if 0 <=? e then sm * 2 ^ e <=? z else sm <=? z * 2 ^ (- e)
  end.

(** [v >= t] for a float [t]: IEEE 754 comparison between floats (false as
    soon as one side is a NaN), exact comparison for an integer, and
    [TypeError] for a list. *)
Definition ge (v : raw) (t : float) : result bool :=
  match v with
  | RFloat p => Ok (PrimFloat.leb t p)
  | RInt z => Ok (int_ge_float z t)
  | RList _ => Raise TypeError
  end.

(** ** The Learner, as far as the utility uses it *)

Inductive vectorizer : Type :=
| DictVectorizer
| FeatureHasher.

(** [isinstance(v, FeatureHasher)]. *)
Definition isinstance_FeatureHasher (v : vectorizer) : bool :=
  match v with
  | FeatureHasher => true
  | DictVectorizer => false
  end.

(** A scikit-learn estimator class; [issubclass(c, RegressorMixin)] is
    [regressor_mixin c]. *)
Record sk_class : Type := {
  class_name : string;
  regressor_mixin : bool
}.

Definition issubclass_RegressorMixin (c : sk_class) : bool := regressor_mixin c.

Section Predictor.

(** Examples and class labels are opaque to the utility. *)
Variable Example : Type.
Variable Label : Type.

(** Modelled from the spec: the FeatureSet is an in-memory collection of
    examples produced by a reader; the class itself lives in [skll.data]. *)
Definition FeatureSet : Type := list Example.

(** Modelled from the spec: the Learner of [skll.learner], an opaque trained
    model with its capability attributes.  [learner_predict l data fh] stands
    for [l.predict(data, feature_hasher=fh).tolist()]. *)
Record Learner : Type := {
  feat_vectorizer : vectorizer;
  probability : bool;
  model_type : sk_class;
  label_list : list Label;
  learner_predict : FeatureSet -> bool -> result (list raw)
}.

(** The values [predict] returns: model output passed through, or a label. *)
Inductive prediction : Type :=
| PNum (v : raw)
| PLabel (l : Label).

Record Predictor : Type := {
  _learner : Learner;
  _pos_index : Z;
  threshold : option float
}.

(** [Learner.from_file], the loader of [skll.learner]. *)
Variable from_file : string -> result Learner.

(** [Predictor.__init__(model_path, threshold=None, positive_class=1)]. *)
Definition __init__ (model_path : string) (threshold : option float)
  (positive_class : Z) : result Predictor :=
  l <- from_file model_path ;;
  Ok {| _learner := l; _pos_index := positive_class; threshold := threshold |}.

(** *** Methods

    A method runs on the object [self] and returns the object it leaves
    behind together with its result. *)
Definition Method (A : Type) : Type := Predictor -> result A * Predictor.

Definition mret {A : Type} (a : A) : Method A := fun self => (Ok a, self).

Definition mbind {A B : Type} (m : Method A) (k : A -> Method B) : Method B :=
  fun self =>
    match m self with
    | (Ok a, self') => k a self'
    | (Raise e, self') => (Raise e, self')
    end.

(** Reading an attribute of [self]. *)
Definition attr {A : Type} (field : Predictor -> A) : Method A :=
  fun self => (Ok (field self), self).

(** An expression that does not touch [self]. *)
Definition eval {A : Type} (r : result A) : Method A :=
  fun self => (r, self).

Notation "x <-- c ;; k" := (mbind c (fun x => k))
  (at level 61, c at next level, right associativity) : py_scope.

(** The three list comprehensions of [predict], element by element. *)

(** [pred[self._pos_index]]. *)
Definition proba_value (pos_index : Z) (pred : raw) : result prediction :=
  p <- getitem pred pos_index ;;
  Ok (PNum p).

(** [int(pred[self._pos_index] >= self.threshold)]. *)
Definition proba_indicator (pos_index : Z) (t : float) (pred : raw)
  : result prediction :=
  p <- getitem pred pos_index ;;
  b <- ge p t ;;
  Ok (PNum (RInt (int_of_bool b))).

(** [pred if isinstance(pred, int) else int(pred[0])]. *)
Definition label_index (pred : raw) : result Z :=
  match pred with
  | RInt z => Ok z
  | _ => x <- getitem pred 0 ;; int_of x
  end.

(** [self._learner.label_list[...]]. *)
Definition class_label (labels : list Label) (pred : raw) : result prediction :=
  i <- label_index pred ;;
  l <- list_getitem labels i ;;
  Ok (PLabel l).

(** [Predictor.predict(data)]. *)
Definition predict (data : FeatureSet) : Method (list prediction) :=
  learner <-- attr _learner ;;
  let use_feature_hashing := isinstance_FeatureHasher (feat_vectorizer learner) in
  preds <-- eval (learner_predict learner data use_feature_hashing) ;;
  learner <-- attr _learner ;;
  if probability learner then
    thr <-- attr threshold ;;
    match thr with
    | None =>
        pos <-- attr _pos_index ;;
        eval (comprehension (proba_value pos) preds)
    | Some t =>
        pos <-- attr _pos_index ;;
        eval (comprehension (proba_indicator pos t) preds)
    end
  else
    learner <-- attr _learner ;;
    if issubclass_RegressorMixin (model_type learner) then
      mret (map PNum preds)
    else
      learner <-- attr _learner ;;
      eval (comprehension (class_label (label_list learner)) preds).

(** The list a call returns (or the exception it raises). *)
Definition predict_result (self : Predictor) (data : FeatureSet)
  : result (list prediction) :=
  fst (predict data self).

End Predictor.

Arguments PNum {Label} v.
Arguments PLabel {Label} l.
Arguments feat_vectorizer {Example Label} l.
Arguments probability {Example Label} l.
Arguments model_type {Example Label} l.
Arguments label_list {Example Label} l.
Arguments learner_predict {Example Label} l data feature_hasher.
Arguments _learner {Example Label} p.
Arguments _pos_index {Example Label} p.
Arguments threshold {Example Label} p.
Arguments __init__ {Example Label} from_file model_path threshold positive_class.
Arguments proba_value {Label} pos_index pred.
Arguments proba_indicator {Label} pos_index t pred.
Arguments class_label {Label} labels pred.
Arguments predict {Example Label} data self.
Arguments predict_result {Example Label} self data.

(** ** The command line *)

(** [str.lower()] on a string of ASCII characters, which the file names and
    the suffixes of [EXT_TO_READER] used below are: the letters [A] to [Z]
    are lowered and every other character is kept.  Python lowers the
    letters of other scripts as well; those are outside this model. *)
Definition lower_ascii (c : ascii) : ascii :=
  let n := N_of_ascii c in
  if ((65 <=? n) && (n <=? 90))%N then ascii_of_N (n + 32) else c.

Fixpoint lower (s : string) : string :=
  match s with
  | EmptyString => EmptyString
  | String c s' => String (lower_ascii c) (lower s')
  end.

(** [s.rfind(c)]: the highest index of [c] in [s], or [-1]. *)
Fixpoint rfind_from (c : ascii) (s : string) (i last : Z) : Z :=
  match s with
  | EmptyString => last
  | String a s' => rfind_from c s' (i + 1) (if Ascii.eqb a c then i else last)
  end.

Definition rfind (c : ascii) (s : string) : Z := rfind_from c s 0 (-1).

(** The loop of [genericpath._splitext] that skips the leading dots of the
    file name: is there a character other than a dot among the [n]
    characters of [p] that start at [filenameIndex]? *)
Fixpoint name_before_dot (p : string) (filenameIndex n : nat) : bool :=
  match n with
  | O => false
  | S n' =>
      match String.get filenameIndex p with
      | Some c =>
          if Ascii.eqb c "."%char then name_before_dot p (S filenameIndex) n'
          else true
      | None => false
      end
  end.

(** [posixpath.splitext(p)] on a string. *)
Definition splitext (p : string) : string * string :=
  let sepIndex := rfind "/"%char p in
  let dotIndex := rfind "."%char p in
  if (sepIndex <? dotIndex)
     && name_before_dot p (Z.to_nat (sepIndex + 1))
                        (Z.to_nat (dotIndex - (sepIndex + 1)))
  then (substring 0 (Z.to_nat dotIndex) p,
        substring (Z.to_nat dotIndex) (String.length p - Z.to_nat dotIndex) p)
  else (p, EmptyString).

(** What an attribute of the parsed arguments holds. *)
Inductive attr_value : Type :=
| AStr (s : string)
| AStrList (l : list string)
| AInt (z : Z)
| ABool (b : bool)
| AFloat (f : float)
| ANone.

(** [os.path.splitext(p)]: anything but a path raises [TypeError]. *)
Definition os_path_splitext (p : attr_value) : result (string * string) :=
  match p with
  | AStr s => Ok (splitext s)
  | _ => Raise TypeError
  end.

(** The object [parser.parse_args(argv)] returns: one attribute for each
    [add_argument] of [main], with the type it declares ([input_file] has
    [nargs='+'] and is a list; [threshold] is [None] unless given). *)
Module Namespace.

Record t : Type := {
  model_file : string;
  input_file : list string;
  label_col : string;
  positive_class : Z;
  quiet : bool;
  threshold : option float
}.

(** [args.name] for a name that does not start with an underscore, as all
    the names [main] reads are: the object holds the six attributes the
    parser declares and any other such name raises [AttributeError].  What a
    Namespace inherits from its class ([__dict__], [_get_kwargs] and the
    like, whose names all start with an underscore) is outside this model. *)
Definition getattr (args : t) (name : string) : result attr_value :=
  if (name =? "model_file")%string then Ok (AStr (model_file args))
  else if (name =? "input_file")%string then Ok (AStrList (input_file args))
  else if (name =? "label_col")%string then Ok (AStr (label_col args))
  else if (name =? "positive_class")%string then Ok (AInt (positive_class args))
  else if (name =? "quiet")%string then Ok (ABool (quiet args))
  else if (name =? "threshold")%string then
    Ok (match threshold args with Some f => AFloat f | None => ANone end)
  else Raise AttributeError.

End Namespace.

(** The reader classes of [skll.data.readers]. *)
Inductive reader_class : Type :=
| ARFFReader
| CSVReader
| NDJReader
| LibSVMReader
| MegaMReader
| TSVReader.

(** Modelled from the spec: the suffix-to-reader mapping [EXT_TO_READER] of
    [skll.data.readers], with the seven suffixes the spec lists. *)
Definition EXT_TO_READER : list (string * reader_class) :=
  [ (".arff", ARFFReader);
    (".csv", CSVReader);
    (".jsonlines", NDJReader);
    (".libsvm", LibSVMReader);
    (".megam", MegaMReader);
    (".ndj", NDJReader);
    (".tsv", TSVReader) ].

(** [d.get(k)], [k in d] and [d[k]] on a dictionary with string keys. *)
Fixpoint dict_get {V : Type} (d : list (string * V)) (k : string) : option V :=
  match d with
  | [] => None
  | (k', v) :: d' => if (k' =? k)%string then Some v else dict_get d' k
  end.

Definition dict_contains {V : Type} (d : list (string * V)) (k : string) : bool :=
  match dict_get d k with
  | Some _ => true
  | None => false
  end.

Definition dict_getitem {V : Type} (d : list (string * V)) (k : string) : result V :=
  match dict_get d k with
  | Some v => Ok v
  | None => Raise KeyError
  end.

(** ** The entry point *)

Section Main.

Variable Example : Type.
Variable Label : Type.

(** [Learner.from_file], and [cls(path, quiet=q, label_col=c).read()] for a
    reader class [cls]: both live in other modules of SKLL. *)
Variable from_file : string -> result (Learner Example Label).
Variable reader_read :
  reader_class -> attr_value -> bool -> string -> result (FeatureSet Example).

(** What a run leaves behind: the lines printed on standard output (one
    prediction each), the messages given to [logger.error], and the readers
    that were instantiated, in order. *)
Record World : Type := {
  stdout : list (prediction Label);
  errors : list string;
  readers : list (reader_class * attr_value)
}.

Definition IO (A : Type) : Type := World -> result A * World.

Definition io_ret {A : Type} (a : A) : IO A := fun w => (Ok a, w).

Definition io_bind {A B : Type} (m : IO A) (k : A -> IO B) : IO B :=
  fun w =>
    match m w with
    | (Ok a, w') => k a w'
    | (Raise e, w') => (Raise e, w')
    end.

Notation "x <~ c ;; k" := (io_bind c (fun x => k))
  (at level 61, c at next level, right associativity) : py_scope.

(** An expression without effect on the world. *)
Definition pure {A : Type} (r : result A) : IO A := fun w => (r, w).

(** [print(pred)]. *)
Definition print (pred : prediction Label) : IO unit :=
  fun w => (Ok tt, {| stdout := stdout w ++ [pred];
                      errors := errors w;
                      readers := readers w |}).

(** [logger.error(msg)]. *)
Definition logger_error (msg : string) : IO unit :=
  fun w => (Ok tt, {| stdout := stdout w;
                      errors := errors w ++ [msg];
                      readers := readers w |}).

(** [cls(path, quiet=q, label_col=c)] followed by [reader.read()]. *)
Definition read_with (cls : reader_class) (path : attr_value) (q : bool)
  (c : string) : IO (FeatureSet Example) :=
  fun w => (reader_read cls path q c,
            {| stdout := stdout w;
               errors := errors w;
               readers := readers w ++ [(cls, path)] |}).

(** [for x in l: body]. *)
Fixpoint for_each {A : Type} (l : list A) (body : A -> IO unit) : IO unit :=
  match l with
  | [] => io_ret tt
  | x :: xs => _ <~ body x ;; for_each xs body
  end.

Definition skipping (input_file : string) : string :=
  "Input file must be in either .arff, .csv, .jsonlines, .libsvm, .megam, .ndj, or .tsv format. Skipping file "
  ++ input_file.

(** [main], from the parsed arguments on. *)
Definition main (args : Namespace.t) : IO unit :=
  (* predictor = Predictor(args.model_file,
                           positive_class=args.positive_class,
                           threshold=args.threshold) *)
  predictor <~ pure (__init__ from_file (Namespace.model_file args)
                       (Namespace.threshold args)
                       (Namespace.positive_class args)) ;;
  (* for input_file in args.input_file: *)
  for_each (Namespace.input_file args) (fun input_file =>
    (* input_extension = os.path.splitext(args.input_file)[1].lower() *)
    p <~ pure (a <- Namespace.getattr args "input_file" ;; os_path_splitext a) ;;
    let input_extension := lower (snd p) in
    if negb (dict_contains EXT_TO_READER input_extension) then
      logger_error (skipping input_file)
    else
      (* reader = EXT_TO_READER[input_extension](args.infile, quiet=args.quiet,
                                                 label_col=args.label_col) *)
      cls <~ pure (dict_getitem EXT_TO_READER input_extension) ;;
      infile <~ pure (Namespace.getattr args "infile") ;;
      feature_set <~ read_with cls infile (Namespace.quiet args)
                       (Namespace.label_col args) ;;
      preds <~ pure (predict_result predictor feature_set) ;;
      for_each preds print).

(** The world before the run. *)
Definition silent : World := {| stdout := []; errors := []; readers := [] |}.

End Main.

Arguments stdout {Label} w.
Arguments errors {Label} w.
Arguments readers {Label} w.
Arguments silent {Label}.
Arguments main {Example Label} from_file reader_read args w.

(** ** Derived notions used by the statements *)

Section Statements.

Variable Example : Type.
Variable Label : Type.

(** The raw output of the model on [data], as [predict] asks for it. *)
Definition raw_output (self : Predictor Example Label)
  (data : FeatureSet Example) : result (list raw) :=
  learner_predict (_learner self) data
    (isinstance_FeatureHasher (feat_vectorizer (_learner self))).

(** What [predict] makes of the raw output for one example, in the mode the
    model and the configuration select. *)
Definition per_example (self : Predictor Example Label) (pred : raw)
  : result (prediction Label) :=
  if probability (_learner self) then
    match threshold self with
    | None => proba_value (_pos_index self) pred
    | Some t => proba_indicator (_pos_index self) t pred
    end
  else if issubclass_RegressorMixin (model_type (_learner self)) then
    Ok (PNum pred)
  else class_label (label_list (_learner self)) pred.

End Statements.

Arguments raw_output {Example Label} self data.
Arguments per_example {Example Label} self pred.

(** A probability vector, as a row of the raw output. *)
Definition row (probs : list float) : raw := RList (map RFloat probs).

(** The index [i] is one [l[i]] accepts, and it is one from the front. *)
Definition valid_index {A : Type} (i : Z) (l : list A) : Prop :=
  - Z.of_nat (List.length l) <= i < Z.of_nat (List.length l).

Definition front_index {A : Type} (i : Z) (l : list A) : Prop :=
  0 <= i < Z.of_nat (List.length l).

(** ** Sample models

    A probability classifier over the labels [neg] and [pos] that is given,
    as example, the probability of [pos]; a regressor that is given the
    value to predict; two classifiers that are given the class index and
    return it bare and in a one-element list. *)

Definition logistic : sk_class :=
  {| class_name := "LogisticRegression"; regressor_mixin := false |}.

Definition ridge : sk_class :=
  {| class_name := "Ridge"; regressor_mixin := true |}.

Definition proba_learner : Learner float string :=
  {| feat_vectorizer := DictVectorizer;
     probability := true;
     model_type := logistic;
     label_list := ["neg"; "pos"];
     learner_predict := fun data _ =>
       Ok (map (fun p => row [(1 - p)%float; p]) data) |}.

Definition regression_learner : Learner float string :=
  {| feat_vectorizer := FeatureHasher;
     probability := false;
     model_type := ridge;
     label_list := [];
     learner_predict := fun data _ => Ok (map RFloat data) |}.

Definition bare_classifier : Learner Z string :=
  {| feat_vectorizer := DictVectorizer;
     probability := false;
     model_type := logistic;
     label_list := ["neg"; "pos"];
     learner_predict := fun data _ => Ok (map RInt data) |}.

Definition boxed_classifier : Learner Z string :=
  {| feat_vectorizer := DictVectorizer;
     probability := false;
     model_type := logistic;
     label_list := ["neg"; "pos"];
     learner_predict := fun data _ => Ok (map (fun z => RList [RInt z]) data) |}.

Definition predictor {Example Label : Type} (l : Learner Example Label)
  (positive_class : Z) (t : option float) : Predictor Example Label :=
  {| _learner := l; _pos_index := positive_class; threshold := t |}.

(** Three examples, with probability 1/4, 1/2 and 7/8 of the positive class. *)
Definition three_examples : FeatureSet float :=
  [0.25%float; 0.5%float; 0.875%float].

(** The parsed command line [model a.csv b.xyz], with the defaults. *)
Definition command_line (files : list string) : Namespace.t :=
  {| Namespace.model_file := "model";
     Namespace.input_file := files;
     Namespace.label_col := "y";
     Namespace.positive_class := 1;
     Namespace.quiet := false;
     Namespace.threshold := None |}.

(** Further sample models: a regressor class that gives probabilities, a
    classifier that returns the class index followed by a score, and a model
    that rejects every FeatureSet. *)

Definition calibrated_ridge : Learner float string :=
  {| feat_vectorizer := FeatureHasher;
     probability := true;
     model_type := ridge;
     label_list := [];
     learner_predict := fun data _ =>
       Ok (map (fun p => row [(1 - p)%float; p]) data) |}.

Definition scored_classifier : Learner Z string :=
  {| feat_vectorizer := DictVectorizer;
     probability := false;
     model_type := logistic;
     label_list := ["neg"; "pos"];
     learner_predict := fun data _ =>
       Ok (map (fun z => RList [RInt z; RFloat 0.5%float]) data) |}.

Definition rejecting_learner : Learner float string :=
  {| feat_vectorizer := DictVectorizer;
     probability := true;
     model_type := logistic;
     label_list := ["neg"; "pos"];
     learner_predict := fun _ _ => Raise (OtherError "feature mismatch") |}.

(** ** The model as an object

    The record [Learner] shows the model as a call of [predict] finds it.
    The model is an object, though: a call of its own [predict] may change
    it, and what its attributes and its next call give may change with it.
    This section embeds the Predictor once more with the Learner as an object
    in a store, so that what a call leaves behind can be stated. *)

Module Stateful.

Section Stateful.

Variable Example : Type.
Variable Label : Type.

(** The states of the Learner object. *)
Variable State : Type.

(** Modelled from the spec: the Learner of [skll.learner] as an object.
    [view s] is what its attributes and a call of its [predict] give when
    the object is in state [s]; [next s data fh] is the state in which the
    call [predict(data, feature_hasher=fh)] leaves it. *)
Record LearnerObject : Type := {
  view : State -> Learner Example Label;
  next : State -> FeatureSet Example -> bool -> State
}.

Variable learner : LearnerObject.

(** The store: the three attributes of the Predictor object, where
    [_learner] holds the address of the Learner object, and the state of the
    object at that address. *)
Record Store : Type := {
  _learner : nat;
  _pos_index : Z;
  threshold : option float;
  learner_object : State
}.

(** [Learner.from_file]: the address and the state of the object it
    loads. *)
Variable from_file : string -> result (nat * State).

(** [Predictor.__init__(model_path, threshold=None, positive_class=1)]. *)
Definition __init__ (model_path : string) (threshold : option float)
  (positive_class : Z) : result Store :=
  l <- from_file model_path ;;
  Ok {| _learner := fst l;
        _pos_index := positive_class;
        threshold := threshold;
        learner_object := snd l |}.

(** A method runs on the store and returns the store it leaves. *)
Definition Call (A : Type) : Type := Store -> result A * Store.

Definition ret {A : Type} (a : A) : Call A := fun st => (Ok a, st).

Definition and_then {A B : Type} (m : Call A) (k : A -> Call B) : Call B :=
  fun st =>
    match m st with
    | (Ok a, st') => k a st'
    | (Raise e, st') => (Raise e, st')
    end.

Notation "x <-- c ;; k" := (and_then c (fun x => k))
  (at level 61, c at next level, right associativity) : py_scope.

(** [self.name], for an attribute of the Predictor. *)
Definition self_attr {A : Type} (field : Store -> A) : Call A :=
  fun st => (Ok (field st), st).

(** [self._learner.name], for an attribute of the Learner. *)
Definition learner_attr {A : Type} (field : Learner Example Label -> A)
  : Call A :=
  fun st => (Ok (field (view learner (learner_object st))), st).

(** [self._learner.predict(data, feature_hasher=fh).tolist()]: the call
    returns in the state it is made in, and leaves the object in the next. *)
Definition learner_call (data : FeatureSet Example) (fh : bool)
  : Call (list raw) :=
  fun st =>
    (learner_predict (view learner (learner_object st)) data fh,
     {| _learner := _learner st;
        _pos_index := _pos_index st;
        threshold := threshold st;
        learner_object := next learner (learner_object st) data fh |}).

(** An expression that does not touch the store. *)
Definition expr {A : Type} (r : result A) : Call A := fun st => (r, st).

(** [Predictor.predict(data)]. *)
Definition predict (data : FeatureSet Example)
  : Call (list (prediction Label)) :=
  vectorizer <-- learner_attr feat_vectorizer ;;
  let use_feature_hashing := isinstance_FeatureHasher vectorizer in
  preds <-- learner_call data use_feature_hashing ;;
  proba <-- learner_attr probability ;;
  if proba then
    thr <-- self_attr threshold ;;
    match thr with
    | None =>
        pos <-- self_attr _pos_index ;;
        expr (comprehension (proba_value pos) preds)
    | Some t =>
        pos <-- self_attr _pos_index ;;
        expr (comprehension (proba_indicator pos t) preds)
    end
  else
    cls <-- learner_attr model_type ;;
    if issubclass_RegressorMixin cls then
      ret (map PNum preds)
    else
      labels <-- learner_attr label_list ;;
      expr (comprehension (class_label labels) preds).

(** The store after one call of [predict] for each FeatureSet of
    [history], in order. *)
Definition calls (history : list (FeatureSet Example)) (st : Store) : Store :=
  fold_left (fun st data => snd (predict data st)) history st.

(** The flag [predict] gives the call of the model in the store [st]. *)
Definition use_feature_hashing (st : Store) : bool :=
  isinstance_FeatureHasher
    (feat_vectorizer (view learner (learner_object st))).

(** The call of the model on [data] leaves the model as it was. *)
Definition unchanged_by (data : FeatureSet Example) (st : Store) : Prop :=
  next learner (learner_object st) data (use_feature_hashing st)
  = learner_object st.

End Stateful.

Arguments view {Example Label State} l s.
Arguments next {Example Label State} l s data feature_hasher.
Arguments _learner {State} s.
Arguments _pos_index {State} s.
Arguments threshold {State} s.
Arguments learner_object {State} s.
Arguments __init__ {State} from_file model_path threshold positive_class.
Arguments predict {Example Label State} learner data st.
Arguments calls {Example Label State} learner history st.
Arguments use_feature_hashing {Example Label State} learner st.
Arguments unchanged_by {Example Label State} learner data st.

End Stateful.

(** The Predictor a store shows: the Learner as its object is now. *)
Definition shown {Example Label State : Type}
  (learner : Stateful.LearnerObject Example Label State)
  (st : Stateful.Store State) : Predictor Example Label :=
  {| _learner := Stateful.view learner (Stateful.learner_object st);
     _pos_index := Stateful._pos_index st;
     threshold := Stateful.threshold st |}.

(** Sample objects, with a counter as state: a model that no call changes,
    and a regressor that counts its calls and predicts the count. *)

Definition steady_model : Stateful.LearnerObject float string nat :=
  {| Stateful.view := fun _ => proba_learner;
     Stateful.next := fun s _ _ => s |}.

Definition counting_model : Stateful.LearnerObject float string nat :=
  {| Stateful.view := fun n =>
       {| feat_vectorizer := DictVectorizer;
          probability := false;
          model_type := ridge;
          label_list := [];
          learner_predict := fun data _ =>
            Ok (map (fun _ => RInt (Z.of_nat n)) data) |};
     Stateful.next := fun n _ _ => S n |}.

(** A loader that puts the object it loads at address 7, in state 0. *)
Definition load_at_7 (model_path : string) : result (nat * nat) :=
  Ok (7%nat, 0%nat).

(** * Properties *)

(** ** List comprehensions *)

Section Comprehension.

Context {A B : Type}.
Variable f : A -> result B.

Lemma comprehension_cons_Ok (x : A) (xs : list A) (y : B) (ys : list B) :
  f x = Ok y -> comprehension f xs = Ok ys ->
  comprehension f (x :: xs) = Ok (y :: ys).
Proof.
  intros Hx Hxs. simpl. rewrite Hx. simpl. rewrite Hxs. reflexivity.
Qed.

(** A comprehension returns [res] exactly when [res] holds, position by
    position, what [f] returns on the elements. *)
Lemma comprehension_Ok_iff (l : list A) (res : list B) :
  comprehension f l = Ok res <-> Forall2 (fun x y => f x = Ok y) l res.
Proof.
  revert res. induction l as [|x xs IH]; intros res; simpl.
  - split.
    + intros H. injection H as <-. constructor.
    + intros H. inversion H. reflexivity.
  - destruct (f x) as [y|e] eqn:Hx; simpl.
    + destruct (comprehension f xs) as [ys|e] eqn:Hxs; simpl.
      * split.
        -- intros H. injection H as <-. constructor; [exact Hx|].
           apply IH. reflexivity.
        -- intros H. inversion H as [|? y' ? ys' Hy Hys]; subst.
           rewrite Hx in Hy. injection Hy as <-.
           apply IH in Hys. injection Hys as <-. reflexivity.
      * split; [discriminate|].
        intros H. inversion H as [|? y' ? ys' Hy Hys]; subst.
        apply IH in Hys. discriminate.
    + split; [discriminate|].
      intros H. inversion H as [|? y' ? ys' Hy Hys]; subst.
      rewrite Hx in Hy. discriminate.
Qed.

Lemma comprehension_length (l : list A) (res : list B) :
  comprehension f l = Ok res -> List.length res = List.length l.
Proof.
  intros H. apply comprehension_Ok_iff in H.
  symmetry. exact (Forall2_length H).
Qed.

(** It returns as soon as [f] returns on every element. *)
Lemma comprehension_total (l : list A) :
  Forall (fun x => exists y, f x = Ok y) l ->
  exists res, comprehension f l = Ok res.
Proof.
  induction 1 as [|x xs [y Hy] _ [ys Hys]].
  - exists []. reflexivity.
  - exists (y :: ys). now apply comprehension_cons_Ok.
Qed.

(** The exception it raises is one that [f] raises on an element. *)
Lemma comprehension_Raise (l : list A) (e : exn) :
  comprehension f l = Raise e -> Exists (fun x => f x = Raise e) l.
Proof.
  induction l as [|x xs IH]; simpl; [discriminate|].
  destruct (f x) as [y|e'] eqn:Hx; simpl.
  - destruct (comprehension f xs) as [ys|e''] eqn:Hxs; simpl; [discriminate|].
    intros H. injection H as ->. apply Exists_cons_tl. now apply IH.
  - intros H. injection H as ->. now apply Exists_cons_hd.
Qed.

End Comprehension.

Lemma Forall2_nth_error {A B : Type} (R : A -> B -> Prop) (l : list A)
  (l' : list B) (i : nat) (x : A) :
  Forall2 R l l' -> nth_error l i = Some x ->
  exists y, nth_error l' i = Some y /\ R x y.
Proof.
  intros H. revert i. induction H as [|a b l l' Hab _ IH]; intros i Hi.
  - destruct i; discriminate.
  - destruct i as [|i]; simpl in *.
    + injection Hi as <-. now exists b.
    + now apply IH.
Qed.

(** ** Python list indexing *)

Lemma list_getitem_in_range {A : Type} (l : list A) (i : Z) :
  - Z.of_nat (List.length l) <= i < Z.of_nat (List.length l) ->
  exists a, list_getitem l i = Ok a.
Proof.
  intros Hi. unfold list_getitem.
  set (n := Z.of_nat (List.length l)) in *.
  set (j := if i <? 0 then i + n else i).
  assert (Hj : 0 <= j < n) by (subst j; destruct (Z.ltb_spec i 0); lia).
  destruct (Z.ltb_spec j 0); [lia|]. destruct (Z.leb_spec n j); [lia|]. simpl.
  destruct (nth_error l (Z.to_nat j)) as [a|] eqn:Hn; [now exists a|].
  apply nth_error_None in Hn. lia.
Qed.

Lemma list_getitem_out_of_range {A : Type} (l : list A) (i : Z) :
  ~ (- Z.of_nat (List.length l) <= i < Z.of_nat (List.length l)) ->
  list_getitem l i = Raise IndexError.
Proof.
  intros Hi. unfold list_getitem.
  set (n := Z.of_nat (List.length l)) in *.
  set (j := if i <? 0 then i + n else i).
  assert (Hj : j < 0 \/ n <= j) by (subst j; destruct (Z.ltb_spec i 0); lia).
  destruct (Z.ltb_spec j 0); [reflexivity|].
  destruct (Z.leb_spec n j); [reflexivity|lia].
Qed.

(** A list raises nothing but [IndexError]. *)
Lemma list_getitem_Raise {A : Type} (l : list A) (i : Z) (e : exn) :
  list_getitem l i = Raise e -> e = IndexError.
Proof.
  unfold list_getitem.
  destruct ((_ <? 0) || _); [intros H; now injection H|].
  destruct (nth_error _ _); [discriminate|intros H; now injection H].
Qed.

(** With an index from [0] the element is the one [nth_error] finds. *)
Lemma list_getitem_nonneg {A : Type} (l : list A) (i : nat) (a : A) :
  nth_error l i = Some a -> list_getitem l (Z.of_nat i) = Ok a.
Proof.
  intros Hn. unfold list_getitem.
  assert (Hi : (i < List.length l)%nat) by (apply nth_error_Some; congruence).
  destruct (Z.ltb_spec (Z.of_nat i) 0); [lia|].
  destruct (Z.ltb_spec (Z.of_nat i) 0); [lia|].
  destruct (Z.leb_spec (Z.of_nat (List.length l)) (Z.of_nat i)); [lia|]. simpl.
  rewrite Nat2Z.id, Hn. reflexivity.
Qed.

(** ** [Predictor.predict] *)

Section PredictProperties.

Context {Example Label : Type}.
Implicit Types (self : Predictor Example Label) (data : FeatureSet Example).
Implicit Types (preds : list raw) (res : list (prediction Label)).

Lemma comprehension_map {A B : Type} (g : A -> B) (l : list A) :
  comprehension (fun x => Ok (g x)) l = Ok (map g l).
Proof.
  induction l as [|x xs IH]; simpl; [reflexivity|].
  rewrite IH. reflexivity.
Qed.

(** The object is the same after the call as before. *)
Lemma predict_self self data : snd (predict data self) = self.
Proof.
  unfold predict, mbind, attr, eval, mret. simpl.
  destruct (learner_predict _ _ _) as [preds|e]; simpl; [|reflexivity].
  destruct (probability _); simpl.
  - destruct (threshold self); simpl;
      reflexivity.
  - destruct (issubclass_RegressorMixin _); simpl; [reflexivity|].
    reflexivity.
Qed.

(** The result of the call, branch by branch. *)
Lemma predict_result_branches self data :
  predict_result self data =
  (preds <- raw_output self data ;;
   if probability (_learner self) then
     match threshold self with
     | None => comprehension (proba_value (_pos_index self)) preds
     | Some t => comprehension (proba_indicator (_pos_index self) t) preds
     end
   else if issubclass_RegressorMixin (model_type (_learner self)) then
     Ok (map PNum preds)
   else comprehension (class_label (label_list (_learner self))) preds).
Proof.
  unfold predict_result, predict, raw_output, mbind, attr, eval, mret. simpl.
  destruct (learner_predict _ _ _) as [preds|e]; simpl; [|reflexivity].
  destruct (probability _); simpl.
  - destruct (threshold self); simpl;
      reflexivity.
  - destruct (issubclass_RegressorMixin _); simpl; [reflexivity|].
    reflexivity.
Qed.

(** In every mode the result is the raw output, mapped example by example. *)
Lemma predict_result_per_example self data :
  predict_result self data =
  (preds <- raw_output self data ;; comprehension (per_example self) preds).
Proof.
  rewrite predict_result_branches.
  destruct (raw_output self data) as [preds|e]; simpl; [|reflexivity].
  unfold per_example.
  destruct (probability _).
  - now destruct (threshold self).
  - destruct (issubclass_RegressorMixin _); [|reflexivity].
    symmetry. apply comprehension_map.
Qed.

(** C1. On a FeatureSet of N examples for which the model returns N rows of
    raw output, whatever [predict] returns has exactly N values, and the
    value at position i is what the selected mode makes of the raw output at
    position i; and [predict] does return when that succeeds on every row. *)
Theorem predict_one_value_per_example self data preds :
  raw_output self data = Ok preds ->
  List.length preds = List.length data ->
  (forall res, predict_result self data = Ok res ->
     List.length res = List.length data /\
     forall i pred, nth_error preds i = Some pred ->
       exists v, nth_error res i = Some v /\ per_example self pred = Ok v)
  /\ (Forall (fun pred => exists v, per_example self pred = Ok v) preds ->
      exists res, predict_result self data = Ok res).
Proof.
  intros Hraw Hlen. rewrite predict_result_per_example, Hraw. simpl. split.
  - intros res Hres. split.
    + rewrite <- Hlen. now apply comprehension_length with (f := per_example self).
    + intros i pred Hi. apply comprehension_Ok_iff in Hres.
      exact (Forall2_nth_error _ _ _ _ _ Hres Hi).
  - apply comprehension_total.
Qed.

(** The fields are the arguments of the constructor. *)
Lemma init_fields (from_file : string -> result (Learner Example Label))
  (model_path : string) (t : option float) (positive_class : Z) self :
  __init__ from_file model_path t positive_class = Ok self ->
  from_file model_path = Ok (_learner self) /\
  _pos_index self = positive_class /\ threshold self = t.
Proof.
  unfold __init__. destruct (from_file model_path) as [l|e]; simpl; [|discriminate].
  intros H. injection H as <-. now repeat split.
Qed.

(** *** Probability mode *)

(** Two floats that compare equal are ordered both ways. *)
Lemma SFeqb_SFleb (a b : spec_float) : SFeqb a b = true -> SFleb b a = true.
Proof.
  unfold SFeqb, SFleb.
  destruct a as [sa|sa| |sa ma ea], b as [sb|sb| |sb mb eb]; simpl;
    try discriminate; try reflexivity;
    try (destruct sa, sb; simpl; (discriminate || reflexivity));
    try (destruct sa; simpl; discriminate);
    try (destruct sb; simpl; discriminate).
  change (PosDef.Pos.compare_cont Eq ma mb) with (Pos.compare ma mb).
  change (PosDef.Pos.compare_cont Eq mb ma) with (Pos.compare mb ma).
  rewrite (Z.compare_antisym ea eb), (Pos.compare_antisym ma mb).
  destruct sa, sb; try discriminate;
    destruct (ea ?= eb); simpl; try discriminate;
    destruct (ma ?= mb)%positive; simpl; (discriminate || reflexivity).
Qed.

Lemma float_eqb_leb (p t : float) :
  PrimFloat.eqb p t = true -> PrimFloat.leb t p = true.
Proof.
  rewrite eqb_spec, leb_spec. apply SFeqb_SFleb.
Qed.

(** C3. In probability mode without a threshold, the value returned for an
    example is the element of its row of raw output at the positive-class
    index, as the model gave it. *)
Theorem predict_probability_unchanged self data preds (values : list raw) :
  probability (_learner self) = true ->
  threshold self = None ->
  raw_output self data = Ok preds ->
  Forall2 (fun pred v => getitem pred (_pos_index self) = Ok v) preds values ->
  predict_result self data = Ok (map PNum values).
Proof.
  intros Hprob Hthr Hraw Hvalues.
  rewrite predict_result_branches, Hraw, Hprob, Hthr. simpl.
  apply comprehension_Ok_iff. clear Hraw.
  induction Hvalues as [|pred v preds values Hv _ IH]; simpl; constructor.
  - unfold proba_value. rewrite Hv. reflexivity.
  - exact IH.
Qed.

(** C2. In probability mode with threshold [t], the value returned for an
    example of probability [p] at the positive-class index is the integer 1
    when [p >= t] and 0 otherwise; a probability equal to [t] gives 1. *)
Theorem predict_threshold_indicator self data preds (t : float)
  (probs : list float) :
  probability (_learner self) = true ->
  threshold self = Some t ->
  raw_output self data = Ok preds ->
  Forall2 (fun pred p => getitem pred (_pos_index self) = Ok (RFloat p))
    preds probs ->
  predict_result self data =
    Ok (map (fun p => PNum (RInt (if PrimFloat.leb t p then 1 else 0))) probs)
  /\ (forall i pred p,
        nth_error preds i = Some pred ->
        getitem pred (_pos_index self) = Ok (RFloat p) ->
        PrimFloat.eqb p t = true ->
        exists res, predict_result self data = Ok res /\
                    nth_error res i = Some (PNum (RInt 1))).
Proof.
  intros Hprob Hthr Hraw Hprobs.
  assert (Hres : predict_result self data =
    Ok (map (fun p => PNum (RInt (if PrimFloat.leb t p then 1 else 0))) probs)).
  { rewrite predict_result_branches, Hraw, Hprob, Hthr. simpl.
    apply comprehension_Ok_iff. clear Hraw.
    induction Hprobs as [|pred p preds probs Hp _ IH]; simpl; constructor.
    - unfold proba_indicator. rewrite Hp. simpl.
      destruct (PrimFloat.leb t p); reflexivity.
    - exact IH. }
  split; [exact Hres|].
  intros i pred p Hi Hp Heq.
  eexists. split; [exact Hres|].
  destruct (Forall2_nth_error _ _ _ _ _ Hprobs Hi) as (p' & Hi' & Hp').
  cbv beta in Hp'. rewrite Hp in Hp'. injection Hp' as <-.
  rewrite nth_error_map, Hi'. simpl.
  rewrite (float_eqb_leb _ _ Heq). reflexivity.
Qed.

(** *** Regression mode *)

(** C4. For a model that gives no probabilities and whose class is a
    regressor, [predict] returns the raw output as it is. *)
Theorem predict_regression_unchanged self data preds :
  probability (_learner self) = false ->
  issubclass_RegressorMixin (model_type (_learner self)) = true ->
  raw_output self data = Ok preds ->
  predict_result self data = Ok (map PNum preds) /\
  List.length (map (@PNum Label) preds) = List.length preds.
Proof.
  intros Hprob Hreg Hraw.
  rewrite predict_result_branches, Hraw, Hprob, Hreg. simpl.
  split; [reflexivity|apply length_map].
Qed.

(** *** Classification mode *)

(** A bare index and a one-element list that holds it are the same index. *)
Lemma label_index_bare (z : Z) : label_index (RInt z) = Ok z.
Proof. reflexivity. Qed.

Lemma label_index_boxed (z : Z) : label_index (RList [RInt z]) = Ok z.
Proof. reflexivity. Qed.

(** C5. For a classifier that gives no probabilities, the value returned for
    an example is the label at the predicted index of the label list; the
    index is the raw prediction when it is an integer and the integer inside
    it when it is a one-element list, and both give the same label. *)
Theorem predict_classification_labels self data preds (labels : list Label) :
  probability (_learner self) = false ->
  issubclass_RegressorMixin (model_type (_learner self)) = false ->
  raw_output self data = Ok preds ->
  Forall2 (fun pred l => exists i, label_index pred = Ok i /\
                         list_getitem (label_list (_learner self)) i = Ok l)
    preds labels ->
  predict_result self data = Ok (map PLabel labels)
  /\ (forall z, label_index (RInt z) = Ok z /\
                label_index (RList [RInt z]) = Ok z /\
                class_label (label_list (_learner self)) (RList [RInt z]) =
                class_label (label_list (_learner self)) (RInt z)).
Proof.
  intros Hprob Hreg Hraw Hlabels. split.
  - rewrite predict_result_branches, Hraw, Hprob, Hreg. simpl.
    apply comprehension_Ok_iff. clear Hraw.
    induction Hlabels as [|pred l preds labels (i & Hi & Hl) _ IH];
      simpl; constructor.
    + unfold class_label. rewrite Hi. simpl. rewrite Hl. reflexivity.
    + exact IH.
  - intros z. repeat split.
Qed.

(** *** The unguarded lookup of probability mode *)

Lemma list_getitem_map {A B : Type} (g : A -> B) (l : list A) (i : Z) :
  list_getitem (map g l) i = (a <- list_getitem l i ;; Ok (g a)).
Proof.
  unfold list_getitem. rewrite length_map, nth_error_map.
  destruct ((_ <? 0) || _); [reflexivity|].
  now destruct (nth_error l _).
Qed.

(** On a probability vector the lookup is the only step that can raise. *)
Lemma per_example_row self (probs : list float) :
  probability (_learner self) = true ->
  per_example self (row probs) =
  (p <- list_getitem probs (_pos_index self) ;;
   Ok (match threshold self with
       | None => PNum (RFloat p)
       | Some t => PNum (RInt (int_of_bool (PrimFloat.leb t p)))
       end)).
Proof.
  intros Hprob. unfold per_example, row. rewrite Hprob.
  destruct (threshold self) as [t|];
    unfold proba_indicator, proba_value; simpl;
    rewrite list_getitem_map; now destruct (list_getitem probs _).
Qed.

Lemma per_example_row_valid self (probs : list float) :
  probability (_learner self) = true ->
  valid_index (_pos_index self) probs ->
  exists v, per_example self (row probs) = Ok v.
Proof.
  intros Hprob Hvalid. rewrite per_example_row by exact Hprob.
  destruct (list_getitem_in_range probs _ Hvalid) as [p ->]. simpl.
  eexists. reflexivity.
Qed.

Lemma per_example_row_invalid self (probs : list float) :
  probability (_learner self) = true ->
  ~ valid_index (_pos_index self) probs ->
  per_example self (row probs) = Raise IndexError.
Proof.
  intros Hprob Hinvalid. rewrite per_example_row by exact Hprob.
  now rewrite (list_getitem_out_of_range probs _ Hinvalid).
Qed.

Lemma valid_index_dec {A : Type} (i : Z) (l : list A) :
  {valid_index i l} + {~ valid_index i l}.
Proof.
  unfold valid_index.
  destruct (Z_le_dec (- Z.of_nat (List.length l)) i);
    destruct (Z_lt_dec i (Z.of_nat (List.length l)));
    (left; lia) || (right; lia).
Qed.

Lemma front_index_valid {A : Type} (i : Z) (l : list A) :
  front_index i l -> valid_index i l.
Proof. unfold front_index, valid_index. lia. Qed.

(** C10, as the code has it.  In probability mode, on probability vectors,
    [predict] returns exactly when the positive-class index is an index that
    every vector accepts, [-len <= positive_class < len], and raises
    [IndexError] otherwise, with or without a threshold; so it returns, and
    raises no [IndexError], whenever [0 <= positive_class < len]. *)
Theorem predict_probability_lookup self data (rows : list (list float)) :
  probability (_learner self) = true ->
  raw_output self data = Ok (map row rows) ->
  ((exists res, predict_result self data = Ok res) <->
   Forall (valid_index (_pos_index self)) rows)
  /\ (~ Forall (valid_index (_pos_index self)) rows ->
      predict_result self data = Raise IndexError)
  /\ (Forall (front_index (_pos_index self)) rows ->
      exists res, predict_result self data = Ok res).
Proof.
  intros Hprob Hraw.
  rewrite predict_result_per_example, Hraw. simpl.
  assert (Hreturns : Forall (valid_index (_pos_index self)) rows ->
            exists res, comprehension (per_example self) (map row rows) = Ok res).
  { intros Hvalid. apply comprehension_total. apply Forall_map.
    eapply Forall_impl; [|exact Hvalid].
    intros probs. now apply per_example_row_valid. }
  assert (Hvalid : forall res,
            comprehension (per_example self) (map row rows) = Ok res ->
            Forall (valid_index (_pos_index self)) rows).
  { intros res Hres. apply comprehension_Ok_iff in Hres.
    apply Forall_forall. intros probs Hin.
    destruct (valid_index_dec (_pos_index self) probs) as [Hv|Hv]; [exact Hv|].
    destruct (In_nth_error _ _ (in_map row _ _ Hin)) as [i Hi].
    destruct (Forall2_nth_error _ _ _ _ _ Hres Hi) as (v & _ & Hv').
    cbv beta in Hv'.
    rewrite (per_example_row_invalid _ _ Hprob Hv) in Hv'. discriminate. }
  split; [|split].
  - split; [intros [res Hres]; now apply (Hvalid res)|exact Hreturns].
  - intros Hinvalid.
    destruct (comprehension (per_example self) (map row rows)) as [res|e] eqn:Hres.
    + exfalso. apply Hinvalid. now apply (Hvalid res).
    + apply comprehension_Raise in Hres.
      apply Exists_exists in Hres. destruct Hres as (pred & Hin & Hpred).
      apply in_map_iff in Hin. destruct Hin as (probs & <- & _).
      rewrite per_example_row in Hpred by exact Hprob.
      destruct (list_getitem probs (_pos_index self)) as [p|e'] eqn:Hget;
        simpl in Hpred; [discriminate|].
      injection Hpred as <-. now rewrite (list_getitem_Raise _ _ _ Hget).
  - intros Hfront. apply Hreturns.
    eapply Forall_impl; [|exact Hfront]. intros probs. apply front_index_valid.
Qed.

End PredictProperties.

(** ** [main] *)

Section MainProperties.

Context {Example Label : Type}.
Variable from_file : string -> result (Learner Example Label).
Variable reader_read :
  reader_class -> attr_value -> bool -> string -> result (FeatureSet Example).

(** The parser declares no attribute [infile]. *)
Lemma getattr_infile (args : Namespace.t) :
  Namespace.getattr args "infile" = Raise AttributeError.
Proof. reflexivity. Qed.

(** [args.input_file] is the whole list of files, which is no path. *)
Lemma splitext_input_file (args : Namespace.t) :
  (a <- Namespace.getattr args "input_file" ;; os_path_splitext a)
  = Raise TypeError.
Proof. reflexivity. Qed.

(** With a model that loads and at least one input file, the first turn of
    the loop raises [TypeError] and the run has printed, logged and read
    nothing. *)
Lemma main_first_file (args : Namespace.t) (w : World Label)
  (self : Predictor Example Label) :
  __init__ from_file (Namespace.model_file args) (Namespace.threshold args)
    (Namespace.positive_class args) = Ok self ->
  Namespace.input_file args <> [] ->
  main from_file reader_read args w = (Raise TypeError, w).
Proof.
  intros Hinit Hfiles. unfold main, io_bind, pure. rewrite Hinit.
  destruct (Namespace.input_file args) as [|input_file files]; [congruence|].
  reflexivity.
Qed.

(** When the model does not load, the run ends with the loader's exception. *)
Lemma main_load_failure (args : Namespace.t) (w : World Label) (e : exn) :
  from_file (Namespace.model_file args) = Raise e ->
  main from_file reader_read args w = (Raise e, w).
Proof.
  intros Hload. unfold main, io_bind, pure, __init__. rewrite Hload. reflexivity.
Qed.

(** A run on at least one input file ends with an exception: the loader's,
    or [TypeError]; and it leaves the world as it found it. *)
Lemma main_aborts (args : Namespace.t) (w : World Label) :
  Namespace.input_file args <> [] ->
  main from_file reader_read args w =
  (match from_file (Namespace.model_file args) with
   | Ok _ => Raise TypeError
   | Raise e => Raise e
   end, w).
Proof.
  intros Hfiles.
  destruct (from_file (Namespace.model_file args)) as [l|e] eqn:Hload.
  - eapply main_first_file; [|exact Hfiles].
    unfold __init__. rewrite Hload. reflexivity.
  - now apply main_load_failure.
Qed.

(** C6, on the code.  Given one file with a recognized suffix and one with an
    unrecognized suffix, the run ends with an exception in the first turn of
    the loop: no error is logged for the unrecognized file and no prediction
    is printed for the recognized one. *)
Theorem main_mixed_suffixes_aborts :
  let run := main from_file reader_read (command_line ["a.csv"; "b.xyz"]) silent in
  fst run = match from_file "model" with
            | Ok _ => Raise TypeError
            | Raise e => Raise e
            end
  /\ errors (snd run) = []
  /\ stdout (snd run) = [].
Proof.
  cbv zeta. rewrite main_aborts by discriminate. now repeat split.
Qed.

(** C7, on the code.  Given a single file with a recognized suffix, the run
    ends with an exception before any reader is instantiated and before
    anything is printed; the path the reader would be given, [args.infile],
    is an attribute that does not exist. *)
Theorem main_recognized_file_aborts :
  let args := command_line ["a.csv"] in
  let run := main from_file reader_read args silent in
  fst run = match from_file "model" with
            | Ok _ => Raise TypeError
            | Raise e => Raise e
            end
  /\ readers (snd run) = []
  /\ stdout (snd run) = []
  /\ Namespace.getattr args "infile" = Raise AttributeError.
Proof.
  cbv zeta. rewrite main_aborts by discriminate. now repeat split.
Qed.

(** C9, on the code.  Given a file whose suffix is the upper-case form of a
    recognized one, the run ends with an exception and no reader is
    instantiated, although the lowered suffix of the file is in the mapping:
    the suffix is taken from the list of files, not from the file. *)
Theorem main_uppercase_suffix_aborts :
  let args := command_line ["a.CSV"] in
  let run := main from_file reader_read args silent in
  fst run = match from_file "model" with
            | Ok _ => Raise TypeError
            | Raise e => Raise e
            end
  /\ readers (snd run) = []
  /\ lower (snd (splitext "a.CSV")) = ".csv"
  /\ dict_get EXT_TO_READER ".csv" = Some CSVReader
  /\ (a <- Namespace.getattr args "input_file" ;; os_path_splitext a)
     = Raise TypeError.
Proof.
  cbv zeta. rewrite main_aborts by discriminate. now repeat split.
Qed.

End MainProperties.

(** ** Further properties of [Predictor.predict] *)

Section PredictFurther.

Context {Example Label : Type}.
Implicit Types (self : Predictor Example Label) (data : FeatureSet Example).
Implicit Types (preds : list raw) (res : list (prediction Label)).

Lemma comprehension_ext {A B : Type} (f g : A -> result B) (l : list A) :
  Forall (fun x => f x = g x) l -> comprehension f l = comprehension g l.
Proof.
  induction 1 as [|x xs Hx _ IH]; simpl; [reflexivity|].
  now rewrite Hx, IH.
Qed.

(** The first element on which [f] raises decides the exception. *)
Lemma comprehension_first_Raise {A B : Type} (f : A -> result B)
  (good : list A) (bad : A) (rest : list A) (e : exn) :
  Forall (fun x => exists y, f x = Ok y) good ->
  f bad = Raise e ->
  comprehension f (good ++ bad :: rest) = Raise e.
Proof.
  intros Hgood Hbad.
  induction Hgood as [|x xs [y Hy] _ IH]; simpl.
  - now rewrite Hbad.
  - now rewrite Hy, IH.
Qed.

(** Two comprehensions over the same list, compared element by element. *)
Lemma comprehension_related {A B C : Type} (f : A -> result B)
  (g : A -> result C) (R : B -> C -> Prop) (l : list A) (ys : list B)
  (zs : list C) :
  (forall x y z, In x l -> f x = Ok y -> g x = Ok z -> R y z) ->
  comprehension f l = Ok ys -> comprehension g l = Ok zs ->
  Forall2 R ys zs.
Proof.
  intros HR Hf Hg.
  apply comprehension_Ok_iff in Hf. apply comprehension_Ok_iff in Hg.
  revert zs Hg. induction Hf as [|x y l ys Hy _ IH]; intros zs Hg.
  - inversion Hg. constructor.
  - inversion Hg as [|? z ? zs' Hz Hzs]; subst. constructor.
    + apply (HR x); [now left|exact Hy|exact Hz].
    + apply IH; [|exact Hzs]. intros x' y' z' Hin. apply HR. now right.
Qed.

Lemma list_getitem_In {A : Type} (l : list A) (i : Z) (a : A) :
  list_getitem l i = Ok a -> In a l.
Proof.
  unfold list_getitem. destruct ((_ <? 0) || _); [discriminate|].
  destruct (nth_error l _) as [a'|] eqn:Hn; [|discriminate].
  intros H. injection H as <-. exact (nth_error_In _ _ Hn).
Qed.

(** An index from the end and the same index from the front. *)
Lemma list_getitem_from_end {A : Type} (l : list A) (i : Z) :
  0 <= i < Z.of_nat (List.length l) ->
  list_getitem l (i - Z.of_nat (List.length l)) = list_getitem l i.
Proof.
  intros Hi. unfold list_getitem.
  destruct (Z.ltb_spec (i - Z.of_nat (List.length l)) 0); [|lia].
  destruct (Z.ltb_spec i 0); [lia|].
  now replace (i - Z.of_nat (List.length l) + Z.of_nat (List.length l)) with i by lia.
Qed.

(** X1. [predict] catches nothing: an exception of the model's own
    [predict] is the exception of the call, and the object is untouched. *)
Theorem predict_model_error self data (e : exn) :
  raw_output self data = Raise e ->
  predict data self = (Raise e, self).
Proof.
  intros Hraw. rewrite (surjective_pairing (predict data self)), predict_self.
  change (fst (predict data self)) with (predict_result self data).
  now rewrite predict_result_per_example, Hraw.
Qed.

(** X2. When the model returns no row, [predict] returns the empty list in
    every mode, whatever the positive-class index, the threshold and the
    label list are. *)
Theorem predict_no_rows self data :
  raw_output self data = Ok [] ->
  predict_result self data = Ok [].
Proof.
  intros Hraw. now rewrite predict_result_per_example, Hraw.
Qed.

(** X3. The probability branch comes first: for models that give
    probabilities the result depends on the raw output, the positive-class
    index and the threshold only, not on the model class nor on the label
    list. *)
Theorem predict_probability_first self self' data :
  probability (_learner self) = true ->
  probability (_learner self') = true ->
  raw_output self data = raw_output self' data ->
  _pos_index self = _pos_index self' ->
  threshold self = threshold self' ->
  predict_result self data = predict_result self' data.
Proof.
  intros Hp Hp' Hraw Hpos Hthr.
  rewrite !predict_result_branches, Hp, Hp', Hraw, Hpos, Hthr. reflexivity.
Qed.

(** X4. With a threshold, every value returned is the integer 0 or the
    integer 1, whatever numbers the rows hold. *)
Theorem predict_threshold_binary self data (t : float) res :
  probability (_learner self) = true ->
  threshold self = Some t ->
  predict_result self data = Ok res ->
  Forall (fun v => v = PNum (RInt 0) \/ v = PNum (RInt 1)) res.
Proof.
  intros Hprob Hthr. rewrite predict_result_branches, Hprob, Hthr.
  destruct (raw_output self data) as [preds|e]; simpl; [|discriminate].
  intros Hres. apply comprehension_Ok_iff in Hres.
  induction Hres as [|pred v preds res Hv _ IH]; [constructor|].
  constructor; [|exact IH].
  unfold proba_indicator in Hv.
  destruct (getitem pred _) as [p|e]; simpl in Hv; [|discriminate].
  destruct (ge p t) as [b|e]; simpl in Hv; [|discriminate].
  injection Hv as <-. destruct b; [now right|now left].
Qed.

Lemma SFleb_trans (a b c : spec_float) :
  SFleb a b = true -> SFleb b c = true -> SFleb a c = true.
Proof.
  unfold SFleb.
  destruct a as [sa|sa| |sa ma ea], b as [sb|sb| |sb mb eb],
    c as [sc|sc| |sc mc ec]; simpl;
    try discriminate; try reflexivity;
    try (destruct sa; simpl; try discriminate; try reflexivity);
    try (destruct sb; simpl; try discriminate; try reflexivity);
    try (destruct sc; simpl; try discriminate; try reflexivity).
  all: change (PosDef.Pos.compare_cont Eq ma mb) with (Pos.compare ma mb);
       change (PosDef.Pos.compare_cont Eq mb mc) with (Pos.compare mb mc);
       change (PosDef.Pos.compare_cont Eq ma mc) with (Pos.compare ma mc).
  all: destruct (Z.compare_spec ea eb); simpl; try discriminate;
       destruct (Z.compare_spec eb ec); simpl; try discriminate;
       destruct (Z.compare_spec ea ec); simpl; try reflexivity; try lia.
  all: destruct (Pos.compare_spec ma mb); simpl; try discriminate;
       destruct (Pos.compare_spec mb mc); simpl; try discriminate;
       destruct (Pos.compare_spec ma mc); simpl; try reflexivity; try lia.
Qed.

Lemma float_leb_trans (a b c : float) :
  PrimFloat.leb a b = true -> PrimFloat.leb b c = true ->
  PrimFloat.leb a c = true.
Proof. rewrite !leb_spec. apply SFleb_trans. Qed.

(** X5. Raising the threshold never turns a 0 into a 1: on probability
    vectors, an example that gets 1 under the threshold [t'] gets 1 under
    every threshold [t <= t']. *)
Theorem predict_threshold_monotone self self' data (t t' : float)
  (rows : list (list float)) res res' :
  probability (_learner self) = true ->
  probability (_learner self') = true ->
  raw_output self data = Ok (map row rows) ->
  raw_output self' data = Ok (map row rows) ->
  _pos_index self = _pos_index self' ->
  threshold self = Some t ->
  threshold self' = Some t' ->
  PrimFloat.leb t t' = true ->
  predict_result self data = Ok res ->
  predict_result self' data = Ok res' ->
  forall i, nth_error res' i = Some (PNum (RInt 1)) ->
            nth_error res i = Some (PNum (RInt 1)).
Proof.
  intros Hp Hp' Hraw Hraw' Hpos Hthr Hthr' Hle Hres Hres' i Hi.
  rewrite predict_result_per_example, Hraw in Hres.
  rewrite predict_result_per_example, Hraw' in Hres'. simpl in Hres, Hres'.
  assert (H2 : Forall2 (fun v' v => v' = PNum (RInt 1) -> v = PNum (RInt 1))
                 res' res).
  { eapply comprehension_related; [|exact Hres'|exact Hres].
    intros pred v' v Hin Hv' Hv ->.
    apply in_map_iff in Hin. destruct Hin as (probs & <- & _).
    rewrite per_example_row in Hv, Hv' by assumption.
    rewrite <- Hpos in Hv'.
    destruct (list_getitem probs (_pos_index self)) as [p|e];
      simpl in Hv, Hv'; [|discriminate].
    rewrite Hthr in Hv. rewrite Hthr' in Hv'.
    injection Hv as <-. injection Hv' as Hv'.
    destruct (PrimFloat.leb t' p) eqn:Hle'; [|discriminate].
    now rewrite (float_leb_trans _ _ _ Hle Hle'). }
  destruct (Forall2_nth_error _ _ _ _ _ H2 Hi) as (v & Hv & Hone).
  now rewrite Hv, Hone.
Qed.

Lemma SFeqb_irrefl_nan (a : spec_float) : SFeqb a a = false -> a = S754_nan.
Proof.
  unfold SFeqb.
  destruct a as [s|s| |s m e]; simpl; try discriminate; try reflexivity.
  - destruct s; discriminate.
  - rewrite Z.compare_refl.
    change (PosDef.Pos.compare_cont Eq m m) with (Pos.compare m m).
    rewrite Pos.compare_refl. destruct s; discriminate.
Qed.

Lemma float_leb_nan (t p : float) :
  PrimFloat.is_nan t = true -> PrimFloat.leb t p = false.
Proof.
  unfold PrimFloat.is_nan. rewrite eqb_spec, leb_spec. intros Hnan.
  apply negb_true_iff in Hnan. now rewrite (SFeqb_irrefl_nan _ Hnan).
Qed.

(** X6. A NaN threshold is never met: on probability vectors that accept
    the positive-class index, every example gets 0. *)
Theorem predict_nan_threshold_never_met self data (t : float)
  (rows : list (list float)) :
  probability (_learner self) = true ->
  threshold self = Some t ->
  PrimFloat.is_nan t = true ->
  raw_output self data = Ok (map row rows) ->
  Forall (valid_index (_pos_index self)) rows ->
  predict_result self data = Ok (map (fun _ => PNum (RInt 0)) rows).
Proof.
  intros Hprob Hthr Hnan Hraw Hvalid.
  rewrite predict_result_per_example, Hraw. simpl.
  apply comprehension_Ok_iff. clear Hraw.
  induction Hvalid as [|probs rows Hv _ IH]; simpl; [constructor|].
  constructor; [|exact IH].
  rewrite per_example_row by exact Hprob.
  destruct (list_getitem_in_range probs _ Hv) as [p ->]. simpl.
  now rewrite Hthr, (float_leb_nan _ p Hnan).
Qed.

(** X7. In probability mode an index from the end and the same index from
    the front give the same result: on rows of [n] values,
    [positive_class - n] is as good as [positive_class]. *)
Theorem predict_probability_index_from_end self self' data preds (n : nat) :
  probability (_learner self) = true ->
  probability (_learner self') = true ->
  raw_output self data = Ok preds ->
  raw_output self' data = Ok preds ->
  threshold self = threshold self' ->
  Forall (fun pred => exists l, pred = RList l /\ List.length l = n) preds ->
  0 <= _pos_index self < Z.of_nat n ->
  _pos_index self' = _pos_index self - Z.of_nat n ->
  predict_result self' data = predict_result self data.
Proof.
  intros Hp Hp' Hraw Hraw' Hthr Hrows Hpos Hpos'.
  rewrite !predict_result_per_example, Hraw, Hraw'. simpl.
  apply comprehension_ext.
  eapply Forall_impl; [|exact Hrows].
  intros pred (l & -> & Hlen). unfold per_example.
  rewrite Hp, Hp', Hthr, Hpos'.
  assert (Hget : getitem (RList l) (_pos_index self - Z.of_nat n)
                 = getitem (RList l) (_pos_index self)).
  { simpl. rewrite <- Hlen. apply list_getitem_from_end. now rewrite Hlen. }
  destruct (threshold self'); unfold proba_indicator, proba_value;
    now rewrite Hget.
Qed.

(** X8. A classifier's result holds nothing but labels of its label list. *)
Theorem predict_classification_known_labels self data res :
  probability (_learner self) = false ->
  issubclass_RegressorMixin (model_type (_learner self)) = false ->
  predict_result self data = Ok res ->
  Forall (fun v => exists l, v = PLabel l /\ In l (label_list (_learner self)))
    res.
Proof.
  intros Hprob Hreg. rewrite predict_result_branches, Hprob, Hreg.
  destruct (raw_output self data) as [preds|e]; simpl; [|discriminate].
  intros Hres. apply comprehension_Ok_iff in Hres.
  induction Hres as [|pred v preds res Hv _ IH]; [constructor|].
  constructor; [|exact IH].
  unfold class_label in Hv.
  destruct (label_index pred) as [i|e]; simpl in Hv; [|discriminate].
  destruct (list_getitem _ i) as [l|e] eqn:Hl; simpl in Hv; [|discriminate].
  injection Hv as <-. exists l. split; [reflexivity|].
  exact (list_getitem_In _ _ _ Hl).
Qed.

Lemma class_label_Ok_iff (labels : list Label) (pred : raw) :
  (exists v, class_label labels pred = Ok v) <->
  (exists i, label_index pred = Ok i /\ valid_index i labels).
Proof.
  unfold class_label. split.
  - intros [v Hv].
    destruct (label_index pred) as [i|e]; simpl in Hv; [|discriminate].
    exists i. split; [reflexivity|].
    destruct (valid_index_dec i labels) as [Hi|Hi]; [exact Hi|].
    rewrite (list_getitem_out_of_range _ _ Hi) in Hv. discriminate.
  - intros (i & -> & Hi). simpl.
    destruct (list_getitem_in_range labels i Hi) as [l ->]. simpl.
    eexists. reflexivity.
Qed.

(** X9. In classification mode [predict] returns exactly when every raw
    prediction gives an index, as an integer or through [int(pred[0])], and
    that index is one the label list accepts, [-len <= index < len]. *)
Theorem predict_classification_defined self data preds :
  probability (_learner self) = false ->
  issubclass_RegressorMixin (model_type (_learner self)) = false ->
  raw_output self data = Ok preds ->
  ((exists res, predict_result self data = Ok res) <->
   Forall (fun pred => exists i, label_index pred = Ok i /\
                       valid_index i (label_list (_learner self))) preds).
Proof.
  intros Hprob Hreg Hraw.
  rewrite predict_result_branches, Hraw, Hprob, Hreg. simpl. split.
  - intros [res Hres]. apply comprehension_Ok_iff in Hres.
    apply Forall_forall. intros pred Hin.
    destruct (In_nth_error _ _ Hin) as [i Hi].
    destruct (Forall2_nth_error _ _ _ _ _ Hres Hi) as (v & _ & Hv).
    apply class_label_Ok_iff. now exists v.
  - intros Hall. apply comprehension_total.
    eapply Forall_impl; [|exact Hall].
    intros pred. apply class_label_Ok_iff.
Qed.

Lemma class_label_first (labels : list Label) (x : raw) (rest : list raw) :
  class_label labels (RList (x :: rest)) = class_label labels (RList [x]).
Proof.
  assert (Hrest : list_getitem (x :: rest) 0 = Ok x)
    by exact (list_getitem_nonneg (x :: rest) 0%nat x eq_refl).
  unfold class_label, label_index, getitem. now rewrite Hrest.
Qed.

(** X10. A raw prediction that is a list is read at its first element only:
    what follows the index in the list does not change the result. *)
Theorem predict_classification_first_element self self' data
  (pairs : list (raw * list raw)) :
  probability (_learner self) = false ->
  probability (_learner self') = false ->
  issubclass_RegressorMixin (model_type (_learner self)) = false ->
  issubclass_RegressorMixin (model_type (_learner self')) = false ->
  label_list (_learner self) = label_list (_learner self') ->
  raw_output self data = Ok (map (fun p => RList (fst p :: snd p)) pairs) ->
  raw_output self' data = Ok (map (fun p => RList [fst p]) pairs) ->
  predict_result self data = predict_result self' data.
Proof.
  intros Hp Hp' Hr Hr' Hlabels Hraw Hraw'.
  rewrite !predict_result_branches, Hraw, Hraw', Hp, Hp', Hr, Hr', Hlabels.
  simpl. clear Hraw Hraw'.
  induction pairs as [|[x rest] pairs IH]; [reflexivity|].
  cbn [map comprehension fst snd].
  now rewrite IH, (class_label_first _ x rest).
Qed.

(** X11. There is no partial result: when the step of the selected mode
    raises on an example and succeeds on the ones before, [predict] raises
    that exception, whatever follows. *)
Theorem predict_first_failure self data (good : list raw) (bad : raw)
  (rest : list raw) (e : exn) :
  raw_output self data = Ok (good ++ bad :: rest)%list ->
  Forall (fun pred => exists v, per_example self pred = Ok v) good ->
  per_example self bad = Raise e ->
  predict_result self data = Raise e.
Proof.
  intros Hraw Hgood Hbad.
  rewrite predict_result_per_example, Hraw. simpl.
  now apply comprehension_first_Raise.
Qed.

End PredictFurther.

(** ** Further properties of [main] *)

Section MainFurther.

Context {Example Label : Type}.
Variable from_file : string -> result (Learner Example Label).
Variable reader_read :
  reader_class -> attr_value -> bool -> string -> result (FeatureSet Example).

(** X12. What a run does, in full: it raises the loader's exception when
    the model does not load, returns when there is no input file, and raises
    [TypeError] in the first turn of the loop otherwise; it never prints,
    logs or instantiates a reader, and nothing depends on the names of the
    files, the readers, the label column or the quiet flag. *)
Theorem main_outcome (args : Namespace.t) (w : World Label) :
  main from_file reader_read args w =
  (match from_file (Namespace.model_file args) with
   | Raise e => Raise e
   | Ok _ => match Namespace.input_file args with
             | [] => Ok tt
             | _ :: _ => Raise TypeError
             end
   end, w).
Proof.
  unfold main, io_bind, pure, __init__.
  destruct (from_file (Namespace.model_file args)) as [l|e]; simpl;
    [|reflexivity].
  now destruct (Namespace.input_file args).
Qed.

End MainFurther.

(** ** The configuration of the Predictor *)

Section ConfigurationProperties.

Context {Example Label State : Type}.
Variable learner : Stateful.LearnerObject Example Label State.
Implicit Types (st : Stateful.Store State) (data : FeatureSet Example).

(** What a call of [predict] leaves: the three attributes as they were, and
    the Learner object in the state its own [predict] leaves it in, whether
    the call returns or raises. *)
Lemma predict_store data st :
  snd (Stateful.predict learner data st) =
  {| Stateful._learner := Stateful._learner st;
     Stateful._pos_index := Stateful._pos_index st;
     Stateful.threshold := Stateful.threshold st;
     Stateful.learner_object :=
       Stateful.next learner (Stateful.learner_object st) data
         (Stateful.use_feature_hashing learner st) |}.
Proof.
  unfold Stateful.predict, Stateful.and_then, Stateful.learner_attr,
    Stateful.learner_call, Stateful.self_attr, Stateful.expr, Stateful.ret,
    Stateful.use_feature_hashing.
  cbn [fst snd Stateful.learner_object Stateful.threshold Stateful._pos_index
       Stateful._learner].
  destruct (learner_predict _ _ _) as [preds|e]; [|reflexivity].
  destruct (probability _).
  - cbn [Stateful.threshold]. now destruct (Stateful.threshold st).
  - now destruct (issubclass_RegressorMixin _).
Qed.

(** No sequence of calls changes an attribute. *)
Lemma calls_attributes (history : list (FeatureSet Example)) st :
  Stateful._learner (Stateful.calls learner history st) = Stateful._learner st
  /\ Stateful._pos_index (Stateful.calls learner history st)
     = Stateful._pos_index st
  /\ Stateful.threshold (Stateful.calls learner history st)
     = Stateful.threshold st.
Proof.
  revert st. induction history as [|data history IH]; intros st.
  - now repeat split.
  - unfold Stateful.calls in *. cbn [fold_left].
    destruct (IH (snd (Stateful.predict learner data st))) as (Hl & Hp & Ht).
    rewrite Hl, Hp, Ht, predict_store. now repeat split.
Qed.

(** A call that leaves the model as it was leaves the store as it was. *)
Lemma predict_unchanged data st :
  Stateful.unchanged_by learner data st ->
  snd (Stateful.predict learner data st) = st.
Proof.
  unfold Stateful.unchanged_by. intros Hsame.
  rewrite predict_store, Hsame. now destruct st.
Qed.

(** Such a call returns what [predict] returns on the model as it is. *)
Lemma predict_shown data st :
  Stateful.unchanged_by learner data st ->
  fst (Stateful.predict learner data st)
  = predict_result (shown learner st) data.
Proof.
  unfold Stateful.unchanged_by, Stateful.use_feature_hashing. intros Hsame.
  rewrite predict_result_branches.
  unfold Stateful.predict, Stateful.and_then, Stateful.learner_attr,
    Stateful.learner_call, Stateful.self_attr, Stateful.expr, Stateful.ret,
    raw_output, shown.
  cbn [fst snd Stateful.learner_object Stateful.threshold Stateful._pos_index
       Stateful._learner _learner _pos_index threshold].
  rewrite Hsame.
  destruct (learner_predict _ _ _) as [preds|e]; [|reflexivity].
  cbn [bind]. destruct (probability _).
  - now destruct (Stateful.threshold st).
  - now destruct (issubclass_RegressorMixin _).
Qed.

(** C8. The three attributes are those the constructor was given (the
    Learner it loaded, the positive-class index, the threshold) after any
    sequence of calls of [predict]; a further call leaves the three of them
    as they are; and when the model's own [predict] leaves the model as it
    was, the call leaves the whole store as it was and a second call on the
    same FeatureSet returns what the first returned. *)
Theorem predictor_configuration_immutable
  (from_file : string -> result (nat * State)) (model_path : string)
  (t : option float) (positive_class : Z) (st0 : Stateful.Store State)
  (history : list (FeatureSet Example)) data :
  Stateful.__init__ from_file model_path t positive_class = Ok st0 ->
  let st := Stateful.calls learner history st0 in
  let after := snd (Stateful.predict learner data st) in
  (exists s0, from_file model_path = Ok (Stateful._learner st, s0))
  /\ Stateful._pos_index st = positive_class
  /\ Stateful.threshold st = t
  /\ Stateful._learner after = Stateful._learner st
  /\ Stateful._pos_index after = Stateful._pos_index st
  /\ Stateful.threshold after = Stateful.threshold st
  /\ (Stateful.unchanged_by learner data st ->
      after = st /\
      fst (Stateful.predict learner data after)
      = fst (Stateful.predict learner data st)).
Proof.
  intros Hinit st after.
  destruct (calls_attributes history st0) as (Hl & Hp & Ht).
  fold st in Hl, Hp, Ht.
  unfold Stateful.__init__ in Hinit.
  destruct (from_file model_path) as [[address s0]|e]; simpl in Hinit;
    [|discriminate].
  injection Hinit as <-. simpl in Hl, Hp, Ht.
  split; [exists s0; now rewrite Hl|].
  split; [exact Hp|]. split; [exact Ht|].
  subst after. rewrite predict_store. cbn [Stateful._learner
    Stateful._pos_index Stateful.threshold].
  repeat (split; [reflexivity|]).
  intros Hsame. rewrite <- predict_store.
  rewrite (predict_unchanged _ _ Hsame). now split.
Qed.

End ConfigurationProperties.

(** ** The properties on the sample models *)

Local Open Scope float_scope.

(** The rows the sample classifier returns on the three examples. *)
Lemma proba_learner_output (positive_class : Z) (t : option float) :
  raw_output (predictor proba_learner positive_class t) three_examples
  = Ok (map row [[0.75; 0.25]; [0.5; 0.5]; [0.125; 0.875]]).
Proof. reflexivity. Qed.

(** The scenario of the specification: labels [neg] and [pos], positive
    class 1 and threshold 1/2 print 0, 1 and 1. *)
Example predict_thresholded :
  predict_result (predictor proba_learner 1 (Some 0.5)) three_examples
  = Ok [PNum (RInt 0); PNum (RInt 1); PNum (RInt 1)].
Proof. reflexivity. Qed.

Example predict_bare_and_boxed :
  predict_result (predictor bare_classifier 1 None) [0; 1; 1; -1]%Z
  = Ok [PLabel "neg"; PLabel "pos"; PLabel "pos"; PLabel "pos"]
  /\ predict_result (predictor boxed_classifier 1 None) [0; 1; 1; -1]%Z
     = predict_result (predictor bare_classifier 1 None) [0; 1; 1; -1]%Z.
Proof. split; reflexivity. Qed.

(** An index past the two classes, from the front or from the end, raises
    [IndexError], with and without a threshold. *)
Example predict_index_out_of_range :
  predict_result (predictor proba_learner 2 None) three_examples
  = Raise IndexError
  /\ predict_result (predictor proba_learner (-3) (Some 0.5)) three_examples
     = Raise IndexError.
Proof. split; reflexivity. Qed.

(** No probability is greater than or equal to a NaN threshold. *)
Example predict_nan_threshold :
  predict_result (predictor proba_learner 1 (Some nan)) three_examples
  = Ok [PNum (RInt 0); PNum (RInt 0); PNum (RInt 0)].
Proof. reflexivity. Qed.

(** The suffix of a file, as the loop of [main] would need it. *)
Example splitext_samples :
  map splitext ["a.CSV"; "dir.d/file"; "a/b.tar.gz"; ".bashrc"]%string
  = [("a", ".CSV"); ("dir.d/file", ""); ("a/b.tar", ".gz"); (".bashrc", "")]%string.
Proof. reflexivity. Qed.

Lemma predict_one_value_per_example_witness :
  let self := predictor proba_learner 1 (Some 0.5) in
  let preds := map row [[0.75; 0.25]; [0.5; 0.5]; [0.125; 0.875]] in
  (forall res, predict_result self three_examples = Ok res ->
     List.length res = List.length three_examples /\
     forall i pred, nth_error preds i = Some pred ->
       exists v, nth_error res i = Some v /\ per_example self pred = Ok v)
  /\ (Forall (fun pred => exists v, per_example self pred = Ok v) preds ->
      exists res, predict_result self three_examples = Ok res).
Proof.
  exact (predict_one_value_per_example
           (predictor proba_learner 1 (Some 0.5)) three_examples
           (map row [[0.75; 0.25]; [0.5; 0.5]; [0.125; 0.875]])
           eq_refl eq_refl).
Defined.

Lemma predict_threshold_indicator_witness :
  predict_result (predictor proba_learner 1 (Some 0.5)) three_examples
  = Ok [PNum (RInt 0); PNum (RInt 1); PNum (RInt 1)].
Proof.
  refine (proj1 (predict_threshold_indicator
                   (predictor proba_learner 1 (Some 0.5)) three_examples
                   (map row [[0.75; 0.25]; [0.5; 0.5]; [0.125; 0.875]])
                   0.5 [0.25; 0.5; 0.875] eq_refl eq_refl eq_refl _)).
  repeat constructor.
Defined.

Lemma predict_probability_unchanged_witness :
  predict_result (predictor proba_learner 1 None) three_examples
  = Ok [PNum (RFloat 0.25); PNum (RFloat 0.5); PNum (RFloat 0.875)].
Proof.
  refine (predict_probability_unchanged
            (predictor proba_learner 1 None) three_examples
            (map row [[0.75; 0.25]; [0.5; 0.5]; [0.125; 0.875]])
            [RFloat 0.25; RFloat 0.5; RFloat 0.875] eq_refl eq_refl eq_refl _).
  repeat constructor.
Defined.

Lemma predict_regression_unchanged_witness :
  predict_result (predictor regression_learner 1 None) three_examples
  = Ok [PNum (RFloat 0.25); PNum (RFloat 0.5); PNum (RFloat 0.875)].
Proof.
  exact (proj1 (predict_regression_unchanged
                  (predictor regression_learner 1 None) three_examples
                  [RFloat 0.25; RFloat 0.5; RFloat 0.875]
                  eq_refl eq_refl eq_refl)).
Defined.

Lemma predict_classification_labels_witness :
  predict_result (predictor boxed_classifier 1 None) [0; 1; 1]%Z
  = Ok [PLabel "neg"; PLabel "pos"; PLabel "pos"].
Proof.
  refine (proj1 (predict_classification_labels
                   (predictor boxed_classifier 1 None) [0; 1; 1]%Z
                   [RList [RInt 0]; RList [RInt 1]; RList [RInt 1]]
                   ["neg"; "pos"; "pos"]%string eq_refl eq_refl eq_refl _)).
  repeat (constructor; [eexists; split; reflexivity|]). constructor.
Defined.

(** C10, as the claim has it, fails: with the positive-class index [-1] the
    lookup takes the last probability of every vector and [predict]
    returns, although [0 <= -1] does not hold. *)
Lemma negative_index_is_accepted :
  let self := predictor proba_learner (-1) None in
  let rows := [[0.75; 0.25]; [0.5; 0.5]; [0.125; 0.875]] in
  probability (_learner self) = true
  /\ raw_output self three_examples = Ok (map row rows)
  /\ predict_result self three_examples
     = Ok [PNum (RFloat 0.25); PNum (RFloat 0.5); PNum (RFloat 0.875)]
  /\ ~ Forall (front_index (_pos_index self)) rows.
Proof.
  cbv zeta. repeat split.
  intros H. inversion H as [|? ? Hfront _]. unfold front_index in Hfront.
  simpl in Hfront. lia.
Qed.

Lemma predict_probability_lookup_witness :
  let self := predictor proba_learner (-1) (Some 0.5) in
  let rows := [[0.75; 0.25]; [0.5; 0.5]; [0.125; 0.875]] in
  ((exists res, predict_result self three_examples = Ok res) <->
   Forall (valid_index (-1)) rows)
  /\ (~ Forall (valid_index (-1)) rows ->
      predict_result self three_examples = Raise IndexError)
  /\ (Forall (front_index (-1)) rows ->
      exists res, predict_result self three_examples = Ok res).
Proof.
  exact (predict_probability_lookup
           (predictor proba_learner (-1) (Some 0.5)) three_examples
           [[0.75; 0.25]; [0.5; 0.5]; [0.125; 0.875]] eq_refl eq_refl).
Defined.

(** ** The further properties on the sample models *)

Lemma predict_model_error_witness :
  predict three_examples (predictor rejecting_learner 1 None)
  = (Raise (OtherError "feature mismatch"), predictor rejecting_learner 1 None).
Proof.
  exact (predict_model_error (predictor rejecting_learner 1 None)
           three_examples (OtherError "feature mismatch") eq_refl).
Defined.

Lemma predict_no_rows_witness :
  predict_result (predictor proba_learner 5 (Some 0.5)) [] = Ok [].
Proof.
  exact (predict_no_rows (predictor proba_learner 5 (Some 0.5)) [] eq_refl).
Defined.

Lemma predict_probability_first_witness :
  predict_result (predictor proba_learner 1 (Some 0.5)) three_examples
  = predict_result (predictor calibrated_ridge 1 (Some 0.5)) three_examples.
Proof.
  exact (predict_probability_first
           (predictor proba_learner 1 (Some 0.5))
           (predictor calibrated_ridge 1 (Some 0.5)) three_examples
           eq_refl eq_refl eq_refl eq_refl eq_refl).
Defined.

Lemma predict_threshold_binary_witness :
  Forall (fun v : prediction string => v = PNum (RInt 0) \/ v = PNum (RInt 1))
    [PNum (RInt 0); PNum (RInt 1); PNum (RInt 1)].
Proof.
  exact (predict_threshold_binary
           (predictor proba_learner 1 (Some 0.5)) three_examples 0.5
           [PNum (RInt 0); PNum (RInt 1); PNum (RInt 1)]
           eq_refl eq_refl eq_refl).
Defined.

Lemma predict_threshold_monotone_witness :
  nth_error [PNum (RInt 1); PNum (RInt 1); PNum (RInt 1)] 1
  = Some (@PNum string (RInt 1)).
Proof.
  exact (predict_threshold_monotone
           (predictor proba_learner 1 (Some 0.25))
           (predictor proba_learner 1 (Some 0.5)) three_examples 0.25 0.5
           [[0.75; 0.25]; [0.5; 0.5]; [0.125; 0.875]]
           [PNum (RInt 1); PNum (RInt 1); PNum (RInt 1)]
           [PNum (RInt 0); PNum (RInt 1); PNum (RInt 1)]
           eq_refl eq_refl eq_refl eq_refl eq_refl eq_refl eq_refl eq_refl
           eq_refl eq_refl 1%nat eq_refl).
Defined.

Lemma predict_nan_threshold_never_met_witness :
  predict_result (predictor proba_learner (-1) (Some nan)) three_examples
  = Ok [PNum (RInt 0); PNum (RInt 0); PNum (RInt 0)].
Proof.
  refine (predict_nan_threshold_never_met
            (predictor proba_learner (-1) (Some nan)) three_examples nan
            [[0.75; 0.25]; [0.5; 0.5]; [0.125; 0.875]]
            eq_refl eq_refl eq_refl eq_refl _).
  repeat constructor; simpl; lia.
Defined.

Lemma predict_probability_index_from_end_witness :
  predict_result (predictor proba_learner (-1) (Some 0.5)) three_examples
  = predict_result (predictor proba_learner 1 (Some 0.5)) three_examples.
Proof.
  refine (predict_probability_index_from_end
            (predictor proba_learner 1 (Some 0.5))
            (predictor proba_learner (-1) (Some 0.5)) three_examples
            (map row [[0.75; 0.25]; [0.5; 0.5]; [0.125; 0.875]]) 2
            eq_refl eq_refl eq_refl eq_refl eq_refl _ _ eq_refl).
  - repeat (constructor; [eexists; split; reflexivity|]). constructor.
  - simpl. lia.
Defined.

Lemma predict_classification_known_labels_witness :
  Forall (fun v => exists l, v = PLabel l /\ In l ["neg"; "pos"]%string)
    [PLabel "neg"; PLabel "pos"; PLabel "pos"]%string.
Proof.
  exact (predict_classification_known_labels
           (predictor bare_classifier 1 None) [0; 1; -1]%Z
           [PLabel "neg"; PLabel "pos"; PLabel "pos"]%string
           eq_refl eq_refl eq_refl).
Defined.

Lemma predict_classification_defined_witness :
  (exists res, predict_result (predictor bare_classifier 1 None) [0; 2]%Z = Ok res)
  <-> Forall (fun pred => exists i, label_index pred = Ok i /\
                          valid_index i ["neg"; "pos"]%string)
        [RInt 0; RInt 2].
Proof.
  exact (predict_classification_defined
           (predictor bare_classifier 1 None) [0; 2]%Z [RInt 0; RInt 2]
           eq_refl eq_refl eq_refl).
Defined.

Lemma predict_classification_first_element_witness :
  predict_result (predictor scored_classifier 1 None) [0; 1]%Z
  = predict_result (predictor boxed_classifier 1 None) [0; 1]%Z.
Proof.
  exact (predict_classification_first_element
           (predictor scored_classifier 1 None)
           (predictor boxed_classifier 1 None) [0; 1]%Z
           [(RInt 0, [RFloat 0.5]); (RInt 1, [RFloat 0.5])]
           eq_refl eq_refl eq_refl eq_refl eq_refl eq_refl eq_refl).
Defined.

Lemma predict_first_failure_witness :
  predict_result (predictor bare_classifier 1 None) [0; 5; 1]%Z
  = Raise IndexError.
Proof.
  refine (predict_first_failure
            (predictor bare_classifier 1 None) [0; 5; 1]%Z
            [RInt 0] (RInt 5) [RInt 1] IndexError eq_refl _ eq_refl).
  repeat constructor. eexists. reflexivity.
Defined.

(** The configuration on the sample objects: a Predictor built by the
    constructor, called twice, and called again on the three examples. *)
Lemma predictor_configuration_immutable_witness :
  let st0 := {| Stateful._learner := 7;
                Stateful._pos_index := 1;
                Stateful.threshold := Some 0.5;
                Stateful.learner_object := 0%nat |} in
  let st := Stateful.calls steady_model [three_examples; []] st0 in
  let after := snd (Stateful.predict steady_model three_examples st) in
  Stateful._learner st = 7%nat
  /\ Stateful._pos_index st = 1%Z
  /\ Stateful.threshold st = Some 0.5
  /\ after = st
  /\ fst (Stateful.predict steady_model three_examples after)
     = fst (Stateful.predict steady_model three_examples st).
Proof.
  cbv zeta.
  pose proof (predictor_configuration_immutable steady_model load_at_7
                "model" (Some 0.5) 1
                {| Stateful._learner := 7;
                   Stateful._pos_index := 1;
                   Stateful.threshold := Some 0.5;
                   Stateful.learner_object := 0%nat |}
                [three_examples; []] three_examples eq_refl) as H.
  cbv zeta in H.
  destruct H as ([s0 Hload] & Hpos & Hthr & _ & _ & _ & Hsame).
  destruct (Hsame eq_refl) as [Hafter Hsecond].
  split; [unfold load_at_7 in Hload; congruence|].
  split; [exact Hpos|]. split; [exact Hthr|]. split; [exact Hafter|].
  exact Hsecond.
Defined.

(** A model that changes with every call shows why the model has to stay as
    it was: the attributes are kept, the second result is another. *)
Example changing_model_second_call :
  let st := {| Stateful._learner := 7;
               Stateful._pos_index := 1;
               Stateful.threshold := None;
               Stateful.learner_object := 0%nat |} in
  let after := snd (Stateful.predict counting_model [0.5] st) in
  fst (Stateful.predict counting_model [0.5] st) = Ok [PNum (RInt 0)]
  /\ fst (Stateful.predict counting_model [0.5] after) = Ok [PNum (RInt 1)]
  /\ Stateful._learner after = 7%nat
  /\ Stateful._pos_index after = 1%Z
  /\ Stateful.threshold after = None.
Proof. cbv zeta. now repeat split. Qed.
